(** * Context-menu composition and command dispatch (main.cpp)

    A shallow embedding of the command / menu-strategy / factory / scene
    layers of [main.cpp].  Qt objects are modelled by the part of their
    state the program observes:

    - the clipboard is a string, message boxes and [qDebug] lines are
      appended to an event log (record [World]);
    - a [QMenu] is its title and the ordered list of its actions;
    - a [std::shared_ptr<T>] that may be null is an [option T];
    - the abstract classes [ICommand] and [MenuStrategy] are records of
      their virtual methods;
    - [QMap<QString, Creator>] is a [gmap string Creator]. *)

From stdpp Require Import base option list strings gmap.

Set Warnings "-register-all".

(** ** Collaborators: clipboard, dialogs, debug output *)

Inductive Event :=
| MessageBox (title text : string)   (* QMessageBox::information(nullptr, title, text) *)
| DebugLine (text : string).         (* qDebug() << text *)

Record World := mkWorld {
  clipboard : string;                (* QApplication::clipboard()->text() *)
  events : list Event
}.

Definition emit (e : Event) (w : World) : World :=
  {| clipboard := clipboard w; events := events w ++ [e] |}.

Definition setClipboard (s : string) (w : World) : World :=
  {| clipboard := s; events := events w |}.

(** [QString::isEmpty] *)
Definition isEmpty (s : string) : bool :=
  match s with
  | EmptyString => true
  | String _ _ => false
  end.

(** A nullable shared pointer. *)
Definition shared_ptr (A : Type) : Type := option A.

(** ** Items *)

(** [BaseCustomItem]: the only virtual data the menu layer reads is
    [objectType()]; [copy()] is not overridden by any subclass. *)
Record BaseCustomItem := mkItem { objectType : string }.

Definition CustomItem : BaseCustomItem := {| objectType := "TextItem" |}.
Definition CustomItem2 : BaseCustomItem := {| objectType := "Special" |}.
Definition CustomItem3 : BaseCustomItem := {| objectType := "Circle" |}.

Definition copy (item : BaseCustomItem) (w : World) : World :=
  emit (MessageBox "Copy" ("Copy action: objectType = " +:+ objectType item)) w.

(** What [itemAt] may return: an item of the [BaseCustomItem] hierarchy, or
    some other [QGraphicsItem] on which the [dynamic_cast] yields null. *)
Inductive QGraphicsItem :=
| Custom (baseItem : BaseCustomItem)
| Foreign.

Definition dynamic_cast (item : QGraphicsItem) : option BaseCustomItem :=
  match item with
  | Custom b => Some b
  | Foreign => None
  end.

(** ** CommandContext *)

Inductive QVariant :=
| QVInvalid
| QVString (s : string)
| QVItemList (l : list (option BaseCustomItem)).

Inductive SceneRef := ThisScene.

Record CommandContext := mkCtx {
  extras : gmap string QVariant;
  scene : option SceneRef
}.

(** [std::make_shared<CommandContext>()] *)
Definition newContext : CommandContext := {| extras := ∅; scene := None |}.

(** [extras.value(key)]: an invalid variant when the key is missing. *)
Definition QVariantMap_value (m : gmap string QVariant) (key : string) : QVariant :=
  default QVInvalid (m !! key).

(** [QVariant::value<QList<BaseCustomItem*>>()]: the empty list unless the
    variant holds such a list. *)
Definition toItemList (v : QVariant) : list (option BaseCustomItem) :=
  match v with
  | QVItemList l => l
  | _ => []
  end.

(** ** Commands *)

(** [execute] acts on the world; the two [const] queries only read it. *)
Record ICommand := mkCommand {
  execute : CommandContext → World → World;
  isEnable : CommandContext → World → bool;
  isVisible : CommandContext → World → bool
}.

(** The defaults of the interface. *)
Definition ICommand_isEnable : CommandContext → World → bool := λ _ _, true.
Definition ICommand_isVisible : CommandContext → World → bool := λ _ _, true.

(** [for (auto& cmd : commands) if (cmd) cmd->execute(ctx);] *)
Fixpoint runCommands (commands : list (shared_ptr ICommand))
    (ctx : CommandContext) (w : World) : World :=
  match commands with
  | [] => w
  | Some cmd :: rest => runCommands rest ctx (execute cmd ctx w)
  | None :: rest => runCommands rest ctx w
  end.

Module CompositeCommand.
Record t := mk { commands : list (shared_ptr ICommand) }.

(** [std::make_shared<CompositeCommand>()] *)
Definition new : t := {| commands := [] |}.

Definition addCommand (cmd : shared_ptr ICommand) (self : t) : t :=
  match cmd with
  | Some c => {| commands := commands self ++ [Some c] |}
  | None => self
  end.

Definition execute (self : t) (ctx : CommandContext) (w : World) : World :=
  runCommands (commands self) ctx w.

(** Upcast to the interface. *)
Definition upcast (self : t) : ICommand :=
  mkCommand (execute self) ICommand_isEnable ICommand_isVisible.
End CompositeCommand.

Module CommandUtils.
Definition combineCommands (list : list (shared_ptr ICommand)) : shared_ptr ICommand :=
  Some (CompositeCommand.upcast
          (foldl (λ combo cmd, CompositeCommand.addCommand cmd combo)
                 CompositeCommand.new list)).
End CommandUtils.

Fixpoint copyItems (l : list (option BaseCustomItem)) (w : World) : World :=
  match l with
  | [] => w
  | Some item :: rest => copyItems rest (copy item w)
  | None :: rest => copyItems rest w
  end.

Definition CopyCommand : ICommand :=
  {| execute := λ ctx w,
       copyItems (toItemList (QVariantMap_value (extras ctx) "selection")) w;
     isEnable := ICommand_isEnable;
     isVisible := ICommand_isVisible |}.

Definition PasteCommand : ICommand :=
  {| execute := λ ctx w, emit (MessageBox "paste" (clipboard w)) w;
     isEnable := λ ctx w, negb (isEmpty (clipboard w));
     isVisible := ICommand_isVisible |}.

Definition NullCommand : ICommand :=
  {| execute := λ ctx w, w;
     isEnable := ICommand_isEnable;
     isVisible := ICommand_isVisible |}.

Definition CustomCommand1 : ICommand :=
  {| execute := λ ctx w, emit (DebugLine "CustomCommand1 executed") w;
     isEnable := ICommand_isEnable;
     isVisible := ICommand_isVisible |}.

Definition CustomCommand2 : ICommand :=
  {| execute := λ ctx w, emit (DebugLine "CustomCommand2 executed") w;
     isEnable := ICommand_isEnable;
     isVisible := ICommand_isVisible |}.

(** ** Menus *)

(** An action of a menu: a command entry (label, enabled flag, and the
    [cmd], [ctx] pair captured by the slot connected to [triggered]), a
    separator, or the action standing for a sub-menu. *)
Inductive QAction :=
| Action (text : string) (enabled : bool) (cmd : ICommand) (ctx : CommandContext)
| Separator
| SubMenu (title : string) (entries : list QAction).

Record QMenu := mkMenu {
  title : string;
  actions : list QAction
}.

(** [new QMenu(parent)] and [new QMenu(title, parent)] *)
Definition newMenu : QMenu := {| title := ""; actions := [] |}.
Definition newTitledMenu (t : string) : QMenu := {| title := t; actions := [] |}.

Definition appendAction (a : QAction) (menu : QMenu) : QMenu :=
  {| title := title menu; actions := actions menu ++ [a] |}.

Definition addSeparator (menu : QMenu) : QMenu := appendAction Separator menu.

Definition addMenu (subMenu : QMenu) (menu : QMenu) : QMenu :=
  appendAction (SubMenu (title subMenu) (actions subMenu)) menu.

(** The slot connected to [QAction::triggered]. *)
Definition trigger (a : QAction) (w : World) : World :=
  match a with
  | Action _ _ cmd ctx => execute cmd ctx w
  | _ => w
  end.

(** ** Menu strategies *)

(** [createMenu(parent, ctx)]: [parent] is null at every call and is left
    out; building a menu reads the world (the clipboard) and does not
    change it. *)
Record MenuStrategy := mkStrategy {
  createMenu : CommandContext → World → QMenu
}.

(** [MenuStrategy::addCommandAction(menu, text, cmd, ctx)] *)
Definition addCommandAction (menu : QMenu) (text : string)
    (cmd : shared_ptr ICommand) (ctx : CommandContext) (w : World) : QMenu :=
  match cmd with
  | None => menu
  | Some c =>
      if negb (isVisible c ctx w) then menu
      else appendAction (Action text (isEnable c ctx w) c ctx) menu
  end.

(** [MenuStrategy::addCommandAction(menu, text, ctx)] *)
Definition addPlaceholderAction (menu : QMenu) (text : string)
    (ctx : CommandContext) (w : World) : QMenu :=
  addCommandAction menu text (Some NullCommand) ctx w.

(** [wrappedStrategy ? wrappedStrategy->createMenu(parent, ctx) : new QMenu(parent)] *)
Definition wrappedMenu (wrapped : shared_ptr MenuStrategy)
    (ctx : CommandContext) (w : World) : QMenu :=
  match wrapped with
  | Some s => createMenu s ctx w
  | None => newMenu
  end.

Definition BaseMenuDecorator (wrapped : shared_ptr MenuStrategy) : MenuStrategy :=
  {| createMenu := λ ctx w,
       let menu := wrappedMenu wrapped ctx w in
       let menu := addSeparator menu in
       let menu := addCommandAction menu "复制" (Some CopyCommand) ctx w in
       let menu := addPlaceholderAction menu "剪切" ctx w in
       let menu := addCommandAction menu "粘贴" (Some PasteCommand) ctx w in
       menu |}.

Definition PasteOnlyMenuDecorator (wrapped : shared_ptr MenuStrategy) : MenuStrategy :=
  {| createMenu := λ ctx w,
       let menu := wrappedMenu wrapped ctx w in
       let menu := addSeparator menu in
       let menu := addPlaceholderAction menu "粘贴" ctx w in
       menu |}.

Definition TextItemMenuStrategy : MenuStrategy :=
  {| createMenu := λ ctx w,
       let menu := newMenu in
       let menu := addPlaceholderAction menu "编辑文本" ctx w in
       let menu := addPlaceholderAction menu "改变字体" ctx w in
       menu |}.

Definition BackgroundMenuStrategy : MenuStrategy :=
  {| createMenu := λ ctx w,
       let menu := newMenu in
       let menu := addPlaceholderAction menu "添加幻灯片" ctx w in
       let menu := addPlaceholderAction menu "版式布局" ctx w in
       menu |}.

Definition NoBaseMenuStrategy : MenuStrategy :=
  {| createMenu := λ ctx w,
       let menu := newMenu in
       let combo := CompositeCommand.new in
       let combo := CompositeCommand.addCommand (Some CustomCommand1) combo in
       let combo := CompositeCommand.addCommand (Some CustomCommand2) combo in
       let menu := addCommandAction menu "无公共操作，仅特殊操作"
                     (Some (CompositeCommand.upcast combo)) ctx w in
       menu |}.

Definition CircleMenuStrategy : MenuStrategy :=
  {| createMenu := λ ctx w,
       let menu := newMenu in
       let menu := addPlaceholderAction menu "改变颜色" ctx w in
       let menu := addPlaceholderAction menu "改变大小" ctx w in
       let combo := CommandUtils.combineCommands
                      [Some CustomCommand1; Some CustomCommand2] in
       let subMenu := newTitledMenu "图形属性" in
       let subMenu := addCommandAction subMenu "旋转" combo ctx w in
       let subMenu := addPlaceholderAction subMenu "缩放" ctx w in
       let menu := addMenu subMenu menu in
       menu |}.

(** ** The strategy factory *)

(** [std::function<std::shared_ptr<MenuStrategy>()>]: empty, or a callable
    that yields a (possibly null) strategy. *)
Inductive Creator :=
| EmptyFunction
| Callable (f : unit → shared_ptr MenuStrategy).

Inductive Exception := bad_function_call.

Inductive Result (A : Type) :=
| Returned (a : A)
| Thrown (e : Exception).
Arguments Returned {A} a.
Arguments Thrown {A} e.

(** [creator()] *)
Definition invoke (creator : Creator) : Result (shared_ptr MenuStrategy) :=
  match creator with
  | Callable f => Returned (f ())
  | EmptyFunction => Thrown bad_function_call
  end.

(** Methods of the singleton: the [creators] map is threaded explicitly and
    a call may end by an exception. *)
Definition Factory (A : Type) : Type :=
  gmap string Creator → Result A * gmap string Creator.

Definition ret {A} (a : A) : Factory A := λ creators, (Returned a, creators).

Definition bind {A B} (m : Factory A) (k : A → Factory B) : Factory B :=
  λ creators,
    match m creators with
    | (Returned a, creators') => k a creators'
    | (Thrown e, creators') => (Thrown e, creators')
    end.

Notation "'let*' x ':=' m 'in' k" := (bind m (λ x, k))
  (at level 10, x name, m at level 100, k at level 200, only parsing).

Module MenuStrategyFactory.
(** [creators.contains(type)] *)
Definition contains (type : string) : Factory bool :=
  λ creators, (Returned (bool_decide (is_Some (creators !! type))), creators).

(** [creators[type]]: a missing key is first inserted with a
    default-constructed value. *)
Definition subscript (type : string) : Factory Creator :=
  λ creators,
    match creators !! type with
    | Some c => (Returned c, creators)
    | None => (Returned EmptyFunction, <[type := EmptyFunction]> creators)
    end.

(** [creators[type] = creator] *)
Definition registerCreator (type : string) (creator : Creator) : Factory unit :=
  let* _ := subscript type in
  λ creators, (Returned (), <[type := creator]> creators).

Definition create (type : string) : Factory (shared_ptr MenuStrategy) :=
  let* found := contains type in
  if found : bool then
    let* creator := subscript type in
    λ creators, (invoke creator, creators)
  else ret None.
End MenuStrategyFactory.

(** [registerMenuStrategies()] *)
Definition registerMenuStrategies : Factory unit :=
  let* _ := MenuStrategyFactory.registerCreator "TextItem"
        (Callable (λ _, Some (BaseMenuDecorator (Some TextItemMenuStrategy)))) in
  let* _ := MenuStrategyFactory.registerCreator "Background"
        (Callable (λ _, Some (PasteOnlyMenuDecorator (Some BackgroundMenuStrategy)))) in
  let* _ := MenuStrategyFactory.registerCreator "Special"
        (Callable (λ _, Some NoBaseMenuStrategy)) in
  MenuStrategyFactory.registerCreator "Circle"
        (Callable (λ _, Some (BaseMenuDecorator (Some CircleMenuStrategy)))).

(** ** The scene *)

(** [menu->exec(pos)]: the user picks the action at [path] (an index per
    menu level) or dismisses the menu; only an enabled command entry
    fires its [triggered] slot. *)
Fixpoint actionAt (entries : list QAction) (path : list nat) : option QAction :=
  match path with
  | [] => None
  | [i] => entries !! i
  | i :: rest =>
      match entries !! i with
      | Some (SubMenu _ sub) => actionAt sub rest
      | _ => None
      end
  end.

Definition exec (menu : QMenu) (choice : option (list nat)) (w : World) : World :=
  match choice with
  | Some path =>
      match actionAt (actions menu) path with
      | Some (Action text true cmd ctx) => trigger (Action text true cmd ctx) w
      | _ => w
      end
  | None => w
  end.

(** How one context-menu event ends: a menu was built and run modally, or
    the event went to [QGraphicsScene::contextMenuEvent]. *)
Inductive Outcome :=
| MenuShown (menu : QMenu)
| DefaultHandling.

(** The user's reaction to the menu that pops up. *)
Definition User : Type := QMenu → option (list nat).

(** The tail of [CustomScene::contextMenuEvent], reached when no strategy
    was found for an item under the cursor. *)
Definition backgroundMenuEvent (user : User) (w : World) : Factory (Outcome * World) :=
  let* defaultStrategy := MenuStrategyFactory.create "Background" in
  match defaultStrategy with
  | Some strategy =>
      let ctx := newContext in
      let menu := createMenu strategy ctx w in
      ret (MenuShown menu, exec menu (user menu) w)
  | None => ret (DefaultHandling, w)
  end.

(** [CustomScene::contextMenuEvent], given what [itemAt] returned. *)
Definition contextMenuEvent (item : option QGraphicsItem) (user : User) (w : World)
    : Factory (Outcome * World) :=
  match item with
  | Some item =>
      match dynamic_cast item with
      | Some baseItem =>
          let* strategy := MenuStrategyFactory.create (objectType baseItem) in
          match strategy with
          | Some strategy =>
              let ctx := {| extras := <["selection" := QVItemList [Some baseItem]]>
                                        (extras newContext);
                            scene := Some ThisScene |} in
              let menu := createMenu strategy ctx w in
              ret (MenuShown menu, exec menu (user menu) w)
          | None => backgroundMenuEvent user w
          end
      | None => backgroundMenuEvent user w
      end
  | None => backgroundMenuEvent user w
  end.

(** The registry as [main] leaves it before the first event. *)
Definition startupCreators : gmap string Creator := (registerMenuStrategies ∅).2.

(** Labels of the top-level entries, for reading examples. *)
Definition label (a : QAction) : string :=
  match a with
  | Action text _ _ _ => text
  | Separator => "--"
  | SubMenu t _ => t
  end.

(** Two commands used to exercise the interface: one that overrides
    [isVisible] to hide itself (no class of main.cpp does, the interface
    allows it), and one observable through the log in the way
    [CustomCommand1] and [CustomCommand2] are. *)
Definition HiddenCommand : ICommand :=
  {| execute := λ ctx w, w;
     isEnable := ICommand_isEnable;
     isVisible := λ ctx w, false |}.

Definition LogCommand (line : string) : ICommand :=
  {| execute := λ ctx w, emit (DebugLine line) w;
     isEnable := ICommand_isEnable;
     isVisible := ICommand_isVisible |}.

Definition emptyClipboard : World := {| clipboard := ""; events := [] |}.

(** The dialog [BaseCustomItem::copy] shows for an item. *)
Definition copyMessage (item : BaseCustomItem) : Event :=
  MessageBox "Copy" ("Copy action: objectType = " +:+ objectType item).

(** The context [contextMenuEvent] builds for the item under the cursor. *)
Definition selectionContext (baseItem : BaseCustomItem) : CommandContext :=
  {| extras := <["selection" := QVItemList [Some baseItem]]> ∅;
     scene := Some ThisScene |}.

(** The commands bound to the entries of a menu, sub-menus included. *)
Fixpoint commandsOf (a : QAction) : list ICommand :=
  match a with
  | Action _ _ cmd _ => [cmd]
  | Separator => []
  | SubMenu _ entries => flat_map commandsOf entries
  end.

Definition menuCommands (menu : QMenu) : list ICommand :=
  flat_map commandsOf (actions menu).

(** A command that never writes the clipboard. *)
Definition keepsClipboard (cmd : ICommand) : Prop :=
  ∀ (ctx : CommandContext) (w : World),
    clipboard (execute cmd ctx w) = clipboard w.

(** * Properties *)

(** ** The helper [addCommandAction] *)

Section AddCommandAction.
Variables (menu : QMenu) (text : string) (ctx : CommandContext) (w : World).

Lemma addCommandAction_null :
  addCommandAction menu text None ctx w = menu.
Proof. reflexivity. Qed.

Lemma addCommandAction_hidden cmd :
  isVisible cmd ctx w = false →
  addCommandAction menu text (Some cmd) ctx w = menu.
Proof. intros Hvis. unfold addCommandAction. by rewrite Hvis. Qed.

Lemma addCommandAction_shown cmd :
  isVisible cmd ctx w = true →
  addCommandAction menu text (Some cmd) ctx w
  = appendAction (Action text (isEnable cmd ctx w) cmd ctx) menu.
Proof. intros Hvis. unfold addCommandAction. by rewrite Hvis. Qed.

Lemma addPlaceholderAction_eq :
  addPlaceholderAction menu text ctx w
  = appendAction (Action text true NullCommand ctx) menu.
Proof. reflexivity. Qed.
End AddCommandAction.

Lemma actionAt_last (entries : list QAction) (a : QAction) :
  actionAt (entries ++ [a]) [length entries] = Some a.
Proof.
  cbn. rewrite lookup_app_r by lia.
  by replace (length entries - length entries) with 0 by lia.
Qed.

(** C4: an entry whose command answers [isVisible(ctx) = false] at build
    time is not added at all: the menu under construction is returned as
    it was, with no entry carrying a flag. *)
Theorem invisible_entry_absent (menu : QMenu) (text : string) (cmd : ICommand)
    (ctx : CommandContext) (w : World) :
  isVisible cmd ctx w = false →
  addCommandAction menu text (Some cmd) ctx w = menu
  ∧ actions (addCommandAction menu text (Some cmd) ctx w) = actions menu.
Proof.
  intros Hvis. by rewrite addCommandAction_hidden.
Qed.

Lemma invisible_entry_absent_witness :
  isVisible HiddenCommand newContext emptyClipboard = false
  ∧ addCommandAction newMenu "隐藏" (Some HiddenCommand) newContext emptyClipboard
    = newMenu.
Proof.
  split; [reflexivity |].
  apply (invisible_entry_absent newMenu "隐藏" HiddenCommand newContext emptyClipboard).
  reflexivity.
Defined.

(** C8: an entry whose command is visible but not enabled at build time
    is appended to the menu with its enabled flag off; running the menu
    and choosing that entry executes nothing. *)
Theorem visible_disabled_entry_present (menu : QMenu) (text : string)
    (cmd : ICommand) (ctx : CommandContext) (w : World) :
  isVisible cmd ctx w = true →
  isEnable cmd ctx w = false →
  actions (addCommandAction menu text (Some cmd) ctx w)
  = actions menu ++ [Action text false cmd ctx]
  ∧ ∀ w' : World,
      exec (addCommandAction menu text (Some cmd) ctx w)
           (Some [length (actions menu)]) w' = w'.
Proof.
  intros Hvis Hen. rewrite addCommandAction_shown, Hen by done.
  split; [done |]. intros w'. unfold exec, appendAction; simpl actions.
  by rewrite actionAt_last.
Qed.

Lemma visible_disabled_entry_present_witness :
  actions (addCommandAction newMenu "粘贴" (Some PasteCommand) newContext emptyClipboard)
  = [Action "粘贴" false PasteCommand newContext].
Proof.
  apply (visible_disabled_entry_present newMenu "粘贴" PasteCommand
           newContext emptyClipboard); reflexivity.
Defined.

(** ** Placeholder and null commands *)

Lemma NullCommand_noop (ctx : CommandContext) (w : World) :
  execute NullCommand ctx w = w.
Proof. reflexivity. Qed.

(** C10: the label-only helper appends exactly one entry, bound to
    [NullCommand], enabled whatever the clipboard and the selection are, and
    whose trigger leaves the world as it is.  So the "剪切" entry of
    [BaseMenuDecorator] and the "粘贴" entry of the Background menu are
    always present and enabled. *)
Theorem placeholder_always_shown_enabled (menu : QMenu) (text : string)
    (ctx : CommandContext) (w : World) :
  actions (addPlaceholderAction menu text ctx w)
  = actions menu ++ [Action text true NullCommand ctx]
  ∧ title (addPlaceholderAction menu text ctx w) = title menu
  ∧ (∀ w' : World, trigger (Action text true NullCommand ctx) w' = w')
  ∧ (∀ w' : World,
       exec (addPlaceholderAction menu text ctx w)
            (Some [length (actions menu)]) w' = w')
  ∧ (∀ wrapped : shared_ptr MenuStrategy,
       Action "剪切" true NullCommand ctx
       ∈ actions (createMenu (BaseMenuDecorator wrapped) ctx w))
  ∧ (∀ wrapped : shared_ptr MenuStrategy,
       Action "粘贴" true NullCommand ctx
       ∈ actions (createMenu (PasteOnlyMenuDecorator wrapped) ctx w)).
Proof.
  rewrite addPlaceholderAction_eq. repeat split.
  - intros w'. unfold exec, appendAction; simpl actions.
    by rewrite actionAt_last.
  - intros wrapped. cbn. set_solver.
  - intros wrapped. cbn. set_solver.
Qed.

(** C2 (as the code has it): a null command makes [addCommandAction]
    return at its guard without touching the menu, so no entry appears and
    nothing faults.  Leaving the command out (the label-only overload) is
    what behaves as binding [NullCommand]: the entry is appended enabled and
    does nothing when triggered. *)
Theorem null_command_entry_omitted (menu : QMenu) (text : string)
    (ctx : CommandContext) (w : World) :
  addCommandAction menu text None ctx w = menu
  ∧ addPlaceholderAction menu text ctx w
    = addCommandAction menu text (Some NullCommand) ctx w
  ∧ actions (addCommandAction menu text (Some NullCommand) ctx w)
    = actions menu ++ [Action text true NullCommand ctx]
  ∧ ∀ w' : World, trigger (Action text true NullCommand ctx) w' = w'.
Proof.
  split; [apply addCommandAction_null |].
  split; [reflexivity |].
  split; [reflexivity | apply NullCommand_noop].
Qed.

(** C2 as stated fails: on an empty menu the null command leaves no entry
    while [NullCommand] leaves one. *)
Lemma null_command_not_like_NullCommand :
  actions (addCommandAction newMenu "剪切" None newContext emptyClipboard) = []
  ∧ addCommandAction newMenu "剪切" None newContext emptyClipboard
    ≠ addCommandAction newMenu "剪切" (Some NullCommand) newContext emptyClipboard.
Proof. split; [reflexivity | discriminate]. Qed.

(** ** Decorators *)

Lemma actions_wrappedMenu_None (ctx : CommandContext) (w : World) :
  actions (wrappedMenu None ctx w) = [].
Proof. reflexivity. Qed.

(** C3: a decorator's menu is the wrapped strategy's menu, then one
    separator, then the decorator's own entries in their order: "复制",
    "剪切", "粘贴" for [BaseMenuDecorator], "粘贴" alone for
    [PasteOnlyMenuDecorator]; without a wrapped strategy it is the separator
    and those entries. *)
Theorem decorator_appends_after_wrapped (S : MenuStrategy)
    (ctx : CommandContext) (w : World) :
  actions (createMenu (BaseMenuDecorator (Some S)) ctx w)
  = actions (createMenu S ctx w)
    ++ [Separator]
    ++ [Action "复制" true CopyCommand ctx;
        Action "剪切" true NullCommand ctx;
        Action "粘贴" (negb (isEmpty (clipboard w))) PasteCommand ctx]
  ∧ actions (createMenu (BaseMenuDecorator None) ctx w)
    = [Separator]
      ++ [Action "复制" true CopyCommand ctx;
          Action "剪切" true NullCommand ctx;
          Action "粘贴" (negb (isEmpty (clipboard w))) PasteCommand ctx]
  ∧ actions (createMenu (PasteOnlyMenuDecorator (Some S)) ctx w)
    = actions (createMenu S ctx w)
      ++ [Separator] ++ [Action "粘贴" true NullCommand ctx]
  ∧ actions (createMenu (PasteOnlyMenuDecorator None) ctx w)
    = [Separator] ++ [Action "粘贴" true NullCommand ctx]
  ∧ title (createMenu (BaseMenuDecorator (Some S)) ctx w)
    = title (createMenu S ctx w)
  ∧ title (createMenu (PasteOnlyMenuDecorator (Some S)) ctx w)
    = title (createMenu S ctx w).
Proof.
  repeat split; cbn; by rewrite <- ?app_assoc.
Qed.

(** ** Composite commands *)

Section Composite.
Variable ctx : CommandContext.

Lemma runCommands_foldl (cs : list (shared_ptr ICommand)) (w : World) :
  runCommands cs ctx w = foldl (λ w' c, execute c ctx w') w (omap id cs).
Proof.
  revert w. induction cs as [| [c |] cs IH]; intros w; simpl; auto.
Qed.

Lemma runCommands_app (cs1 cs2 : list (shared_ptr ICommand)) (w : World) :
  runCommands (cs1 ++ cs2) ctx w = runCommands cs2 ctx (runCommands cs1 ctx w).
Proof.
  revert w. induction cs1 as [| [c |] cs1 IH]; intros w; simpl; auto.
Qed.

Lemma commands_addCommands (cs : list (shared_ptr ICommand))
    (self : CompositeCommand.t) :
  CompositeCommand.commands
    (foldl (λ combo cmd, CompositeCommand.addCommand cmd combo) self cs)
  = CompositeCommand.commands self ++ (Some <$> omap id cs).
Proof.
  revert self. induction cs as [| [c |] cs IH]; intros self; simpl.
  - by rewrite app_nil_r.
  - rewrite IH. simpl. by rewrite <- app_assoc.
  - apply IH.
Qed.

Lemma runCommands_log (lines : list string) (w : World) :
  runCommands (Some <$> (LogCommand <$> lines)) ctx w
  = {| clipboard := clipboard w;
       events := events w ++ (DebugLine <$> lines) |}.
Proof.
  revert w. induction lines as [| l lines IH]; intros w; simpl.
  - rewrite app_nil_r. by destruct w.
  - rewrite IH. simpl. by rewrite <- app_assoc.
Qed.
End Composite.

(** C6: [CompositeCommand::execute] is the sequential composition of the
    children's [execute], first inserted first, null children skipped, up
    to the end of the sequence.  [addCommand] keeps the non-null children
    in insertion order; a child added last runs last, on the world the
    earlier ones left; and children that log a line each leave exactly
    their lines, once each, in insertion order. *)
Theorem composite_executes_children_in_order
    (cs : list (shared_ptr ICommand)) (ctx : CommandContext) (w : World) :
  execute (CompositeCommand.upcast (CompositeCommand.mk cs)) ctx w
  = foldl (λ w' c, execute c ctx w') w (omap id cs)
  ∧ CommandUtils.combineCommands cs
    = Some (CompositeCommand.upcast (CompositeCommand.mk (Some <$> omap id cs)))
  ∧ (∀ (self : CompositeCommand.t) (c : ICommand),
       CompositeCommand.execute (CompositeCommand.addCommand (Some c) self) ctx w
       = execute c ctx (CompositeCommand.execute self ctx w))
  ∧ (∀ self : CompositeCommand.t,
       CompositeCommand.execute (CompositeCommand.addCommand None self) ctx w
       = CompositeCommand.execute self ctx w)
  ∧ (∀ lines : list string,
       events (execute (CompositeCommand.upcast
                          (CompositeCommand.mk (Some <$> (LogCommand <$> lines))))
                       ctx w)
       = events w ++ (DebugLine <$> lines)).
Proof.
  split; [apply runCommands_foldl |].
  split.
  { unfold CommandUtils.combineCommands. do 2 f_equal.
    pose proof (commands_addCommands cs CompositeCommand.new) as H.
    destruct (foldl _ _ _) as [l]. simpl in H. by rewrite H. }
  split.
  { intros self c. unfold CompositeCommand.execute; simpl.
    by rewrite runCommands_app. }
  split; [done |].
  intros lines. simpl. unfold CompositeCommand.execute; simpl.
  by rewrite runCommands_log.
Qed.

Example composite_custom_commands (ctx : CommandContext) :
  events (execute (CompositeCommand.upcast
                     (CompositeCommand.mk
                        [Some CustomCommand1; None; Some CustomCommand2]))
                  ctx emptyClipboard)
  = [DebugLine "CustomCommand1 executed"; DebugLine "CustomCommand2 executed"].
Proof. reflexivity. Qed.

(** ** The factory *)

Section Registry.
Variable creators : gmap string Creator.

Lemma registerCreator_insert (type : string) (creator : Creator) :
  MenuStrategyFactory.registerCreator type creator creators
  = (Returned (), <[type := creator]> creators).
Proof.
  unfold MenuStrategyFactory.registerCreator, bind,
    MenuStrategyFactory.subscript.
  destruct (creators !! type); [done |].
  by rewrite insert_insert_eq.
Qed.

Lemma create_registered (type : string) (creator : Creator) :
  creators !! type = Some creator →
  MenuStrategyFactory.create type creators = (invoke creator, creators).
Proof.
  intros Hin.
  unfold MenuStrategyFactory.create, bind, MenuStrategyFactory.contains,
    MenuStrategyFactory.subscript.
  rewrite Hin, bool_decide_eq_true_2 by eauto. by rewrite Hin.
Qed.

Lemma create_unregistered (type : string) :
  creators !! type = None →
  MenuStrategyFactory.create type creators = (Returned None, creators).
Proof.
  intros Hout.
  unfold MenuStrategyFactory.create, bind, MenuStrategyFactory.contains.
  rewrite Hout. rewrite bool_decide_eq_false_2; [done |].
  by intros [? ?].
Qed.
End Registry.

(** C9: [create] on an identifier without a registered factory returns
    the null strategy normally (no exception) and the [creators] map is
    the one it started from. *)
Theorem create_unregistered_absent (creators : gmap string Creator)
    (type : string) :
  creators !! type = None →
  MenuStrategyFactory.create type creators = (Returned None, creators).
Proof. apply create_unregistered. Qed.

Lemma create_unregistered_absent_witness :
  startupCreators !! "Polygon" = None
  ∧ MenuStrategyFactory.create "Polygon" startupCreators
    = (Returned None, startupCreators).
Proof.
  split; [reflexivity |].
  apply (create_unregistered_absent startupCreators "Polygon").
  reflexivity.
Defined.

(** C7: after [registerCreator t f], [create t] returns what [f()]
    returns.  Registering [t] again with [g] leaves the map exactly as if
    only [g] had been registered, so [create t] then returns [g()]; other
    identifiers keep their factory. *)
Theorem register_then_create (creators : gmap string Creator) (t : string)
    (f g : unit → shared_ptr MenuStrategy) :
  MenuStrategyFactory.create t
    (MenuStrategyFactory.registerCreator t (Callable f) creators).2
  = (Returned (f ()),
     (MenuStrategyFactory.registerCreator t (Callable f) creators).2)
  ∧ (MenuStrategyFactory.registerCreator t (Callable g)
       (MenuStrategyFactory.registerCreator t (Callable f) creators).2).2
    = (MenuStrategyFactory.registerCreator t (Callable g) creators).2
  ∧ (MenuStrategyFactory.create t
       (MenuStrategyFactory.registerCreator t (Callable g)
          (MenuStrategyFactory.registerCreator t (Callable f) creators).2).2).1
    = Returned (g ())
  ∧ (∀ t' : string, t' ≠ t →
       (MenuStrategyFactory.registerCreator t (Callable f) creators).2 !! t'
       = creators !! t').
Proof.
  rewrite !registerCreator_insert; simpl.
  split; [| split; [| split]].
  - by rewrite (create_registered _ t (Callable f)) by apply lookup_insert_eq.
  - apply insert_insert_eq.
  - by rewrite (create_registered _ t (Callable g)) by apply lookup_insert_eq.
  - intros t' Hne. by apply lookup_insert_ne.
Qed.

(** ** Dispatch *)

Lemma backgroundMenuEvent_unregistered (creators : gmap string Creator)
    (user : User) (w : World) :
  creators !! "Background" = None →
  backgroundMenuEvent user w creators = (Returned (DefaultHandling, w), creators).
Proof.
  intros Hbg. unfold backgroundMenuEvent, bind.
  by rewrite create_unregistered.
Qed.

Lemma backgroundMenuEvent_registered (creators : gmap string Creator)
    (user : User) (w : World) (f : unit → shared_ptr MenuStrategy)
    (strategy : MenuStrategy) :
  creators !! "Background" = Some (Callable f) →
  f () = Some strategy →
  backgroundMenuEvent user w creators
  = (Returned (MenuShown (createMenu strategy newContext w),
               exec (createMenu strategy newContext w)
                    (user (createMenu strategy newContext w)) w),
     creators).
Proof.
  intros Hbg Hf. unfold backgroundMenuEvent, bind.
  rewrite (create_registered _ _ _ Hbg). simpl. by rewrite Hf.
Qed.

(** C5: a context-menu event over an item whose [objectType()] has no
    registered creator ends exactly as an event over no item: both run the
    "Background" fallback, with the same outcome, world and registry.  The
    menu shown is the one the strategy made by the "Background" creator
    builds on a fresh context, and it is run with the user's choice.  When
    "Background" has no creator, or its creator yields a null strategy, no
    menu is shown and the event goes to the default handler. *)
Theorem unregistered_item_like_background (creators : gmap string Creator)
    (baseItem : BaseCustomItem) (user : User) (w : World) :
  creators !! objectType baseItem = None →
  contextMenuEvent (Some (Custom baseItem)) user w creators
  = contextMenuEvent None user w creators
  ∧ contextMenuEvent None user w creators = backgroundMenuEvent user w creators
  ∧ (creators !! "Background" = None →
     contextMenuEvent (Some (Custom baseItem)) user w creators
     = (Returned (DefaultHandling, w), creators)
     ∧ contextMenuEvent None user w creators
       = (Returned (DefaultHandling, w), creators))
  ∧ contextMenuEvent (Some (Custom baseItem)) user w creators
    = (match creators !! "Background" with
       | Some (Callable f) =>
           match f () with
           | Some strategy =>
               Returned (MenuShown (createMenu strategy newContext w),
                         exec (createMenu strategy newContext w)
                              (user (createMenu strategy newContext w)) w)
           | None => Returned (DefaultHandling, w)
           end
       | Some EmptyFunction => Thrown bad_function_call
       | None => Returned (DefaultHandling, w)
       end,
       creators).
Proof.
  intros Hout.
  assert (contextMenuEvent (Some (Custom baseItem)) user w creators
          = backgroundMenuEvent user w creators) as Hitem.
  { unfold contextMenuEvent; simpl. unfold bind at 1.
    by rewrite create_unregistered. }
  split; [done |]. split; [done |].
  split.
  - intros Hbg. rewrite Hitem.
    split; by apply backgroundMenuEvent_unregistered.
  - rewrite Hitem.
    destruct (creators !! "Background") as [[| f] |] eqn:Hbg.
    + unfold backgroundMenuEvent, bind.
      by rewrite (create_registered _ _ _ Hbg).
    + destruct (f ()) as [strategy |] eqn:Hf.
      * by apply (backgroundMenuEvent_registered _ _ _ f).
      * unfold backgroundMenuEvent, bind.
        rewrite (create_registered _ _ _ Hbg). simpl. by rewrite Hf.
    + by apply backgroundMenuEvent_unregistered.
Qed.

Lemma unregistered_item_like_background_witness :
  (contextMenuEvent (Some (Custom {| objectType := "Polygon" |}))
     (λ _, None) emptyClipboard startupCreators
   = contextMenuEvent None (λ _, None) emptyClipboard startupCreators
   ∧ contextMenuEvent (Some (Custom {| objectType := "Polygon" |}))
       (λ _, None) emptyClipboard startupCreators
     = (Returned
          (MenuShown
             (createMenu (PasteOnlyMenuDecorator (Some BackgroundMenuStrategy))
                newContext emptyClipboard),
           emptyClipboard),
        startupCreators))
  ∧ (contextMenuEvent (Some (Custom {| objectType := "Polygon" |}))
       (λ _, None) emptyClipboard ∅
     = contextMenuEvent None (λ _, None) emptyClipboard ∅
     ∧ contextMenuEvent None (λ _, None) emptyClipboard ∅
       = (Returned (DefaultHandling, emptyClipboard), ∅)).
Proof.
  split.
  - assert (startupCreators !! "Polygon" = None) as Hout by reflexivity.
    destruct (unregistered_item_like_background startupCreators
                {| objectType := "Polygon" |} (λ _, None) emptyClipboard Hout)
      as (Hsame & _ & _ & Hmenu).
    split; [exact Hsame |]. rewrite Hmenu. reflexivity.
  - assert ((∅ : gmap string Creator) !! "Polygon" = None) as Hout by reflexivity.
    destruct (unregistered_item_like_background ∅ {| objectType := "Polygon" |}
                (λ _, None) emptyClipboard Hout) as (Hsame & _ & Hdefault & _).
    split; [exact Hsame |].
    apply Hdefault. reflexivity.
Defined.

Example unregistered_item_background_menu (w : World) :
  (contextMenuEvent (Some (Custom {| objectType := "Polygon" |}))
     (λ _, None) w startupCreators).1
  = Returned
      (MenuShown
         {| title := "";
            actions := [Action "添加幻灯片" true NullCommand newContext;
                        Action "版式布局" true NullCommand newContext;
                        Separator;
                        Action "粘贴" true NullCommand newContext] |},
       w).
Proof. reflexivity. Qed.

(** C1 (what the code does): with the registrations of
    [registerMenuStrategies] and an empty clipboard, an event over the
    background builds a menu whose "粘贴" entry is bound to [NullCommand]
    and is enabled, although [PasteCommand::isEnable] is false in that
    world and the "粘贴" entry of the TextItem menu, built by
    [BaseMenuDecorator] in the same world, is disabled. *)
Theorem background_paste_enabled_on_empty_clipboard :
  (contextMenuEvent None (λ _, None) emptyClipboard startupCreators).1
  = Returned
      (MenuShown
         {| title := "";
            actions := [Action "添加幻灯片" true NullCommand newContext;
                        Action "版式布局" true NullCommand newContext;
                        Separator;
                        Action "粘贴" true NullCommand newContext] |},
       emptyClipboard)
  ∧ isEnable PasteCommand newContext emptyClipboard = false
  ∧ last (actions (createMenu (BaseMenuDecorator (Some TextItemMenuStrategy))
                     newContext emptyClipboard))
    = Some (Action "粘贴" false PasteCommand newContext)
  ∧ ∀ w : World,
      last (actions (createMenu (PasteOnlyMenuDecorator (Some BackgroundMenuStrategy))
                       newContext w))
      = Some (Action "粘贴" true NullCommand newContext).
Proof. repeat split. Qed.


(** * Further properties of the code *)

(** ** [CopyCommand] *)

Lemma copyItems_events (l : list (option BaseCustomItem)) (w : World) :
  copyItems l w
  = {| clipboard := clipboard w;
       events := events w ++ (copyMessage <$> omap id l) |}.
Proof.
  revert w. induction l as [| [item |] l IH]; intros w; simpl.
  - rewrite app_nil_r. by destruct w.
  - rewrite IH. simpl. by rewrite <- app_assoc.
  - apply IH.
Qed.

(** X1: [CopyCommand::execute] shows one "Copy" dialog per non-null item
    of the "selection" list of the context, in the order of the list,
    skips null items, and leaves the clipboard as it is. *)
Theorem copy_reports_each_selected_item (ctx : CommandContext)
    (l : list (option BaseCustomItem)) (w : World) :
  extras ctx !! "selection" = Some (QVItemList l) →
  execute CopyCommand ctx w
  = {| clipboard := clipboard w;
       events := events w ++ (copyMessage <$> omap id l) |}.
Proof.
  intros Hsel. simpl. unfold QVariantMap_value. rewrite Hsel. simpl.
  apply copyItems_events.
Qed.

Lemma copy_reports_each_selected_item_witness :
  execute CopyCommand
    {| extras := {["selection" := QVItemList [Some CustomItem; None; Some CustomItem3]]};
       scene := None |}
    emptyClipboard
  = {| clipboard := "";
       events := [MessageBox "Copy" "Copy action: objectType = TextItem";
                  MessageBox "Copy" "Copy action: objectType = Circle"] |}.
Proof.
  apply (copy_reports_each_selected_item
           {| extras := {["selection" := QVItemList [Some CustomItem; None; Some CustomItem3]]};
              scene := None |}
           [Some CustomItem; None; Some CustomItem3] emptyClipboard).
  reflexivity.
Defined.

(** X2: without a "selection" entry in the context, or with one that
    does not hold an item list, [CopyCommand::execute] does nothing. *)
Theorem copy_without_selection_noop (ctx : CommandContext) (w : World) :
  (extras ctx !! "selection" = None
   ∨ extras ctx !! "selection" = Some QVInvalid
   ∨ ∃ s, extras ctx !! "selection" = Some (QVString s)) →
  execute CopyCommand ctx w = w.
Proof.
  intros Hsel. simpl. unfold QVariantMap_value.
  destruct Hsel as [-> | [-> | [s ->]]]; reflexivity.
Qed.

Lemma copy_without_selection_noop_witness :
  execute CopyCommand newContext emptyClipboard = emptyClipboard.
Proof.
  apply (copy_without_selection_noop newContext emptyClipboard).
  left. reflexivity.
Defined.

(** ** [addCommandAction] *)

(** X3: whatever the command (null, hidden or shown),
    [addCommandAction] keeps the title and the entries already in the menu,
    in place, and adds at most one entry after them. *)
Theorem addCommandAction_keeps_entries (menu : QMenu) (text : string)
    (cmd : shared_ptr ICommand) (ctx : CommandContext) (w : World) :
  title (addCommandAction menu text cmd ctx w) = title menu
  ∧ actions menu `prefix_of` actions (addCommandAction menu text cmd ctx w)
  ∧ length (actions (addCommandAction menu text cmd ctx w))
    ≤ S (length (actions menu)).
Proof.
  unfold addCommandAction.
  destruct cmd as [c |]; [destruct (isVisible c ctx w) |]; simpl;
    repeat split; try done; try lia.
  - by apply prefix_app_r.
  - rewrite length_app. simpl. lia.
Qed.

(** ** The factory and the registrations *)

Lemma create_lookup (creators : gmap string Creator) (type : string) :
  MenuStrategyFactory.create type creators
  = (match creators !! type with
     | Some (Callable f) => Returned (f ())
     | Some EmptyFunction => Thrown bad_function_call
     | None => Returned None
     end,
     creators).
Proof.
  destruct (creators !! type) as [creator |] eqn:Hlook.
  - rewrite (create_registered _ _ _ Hlook). by destruct creator.
  - by apply create_unregistered.
Qed.

(** X4: [create] never changes the registry, registered or not: it
    returns what the creator found under the identifier returns, null for
    an identifier without a creator, and it throws exactly when the creator
    found is an empty function. *)
Theorem create_by_lookup (creators : gmap string Creator) (type : string) :
  MenuStrategyFactory.create type creators
  = (match creators !! type with
     | Some (Callable f) => Returned (f ())
     | Some EmptyFunction => Thrown bad_function_call
     | None => Returned None
     end,
     creators)
  ∧ (MenuStrategyFactory.create type creators).2 = creators.
Proof. by rewrite create_lookup. Qed.

(** X5: [registerCreator] does not validate the creator: an empty
    function is stored as it is, [create] on that identifier then throws
    [bad_function_call], and a context-menu event over an item of that
    type, or over the background when the identifier is "Background", ends
    with that exception instead of falling back. *)
Theorem empty_creator_throws (creators : gmap string Creator)
    (baseItem : BaseCustomItem) (user : User) (w : World) :
  (MenuStrategyFactory.registerCreator (objectType baseItem) EmptyFunction creators).2
  = <[objectType baseItem := EmptyFunction]> creators
  ∧ MenuStrategyFactory.create (objectType baseItem)
      (<[objectType baseItem := EmptyFunction]> creators)
    = (Thrown bad_function_call, <[objectType baseItem := EmptyFunction]> creators)
  ∧ contextMenuEvent (Some (Custom baseItem)) user w
      (<[objectType baseItem := EmptyFunction]> creators)
    = (Thrown bad_function_call, <[objectType baseItem := EmptyFunction]> creators)
  ∧ contextMenuEvent None user w (<["Background" := EmptyFunction]> creators)
    = (Thrown bad_function_call, <["Background" := EmptyFunction]> creators).
Proof.
  split; [by rewrite registerCreator_insert |].
  split; [by rewrite create_lookup, lookup_insert_eq |].
  split.
  - unfold contextMenuEvent; simpl. unfold bind.
    by rewrite create_lookup, lookup_insert_eq.
  - unfold contextMenuEvent, backgroundMenuEvent, bind.
    by rewrite create_lookup, lookup_insert_eq.
Qed.

Lemma startupCreators_inserts :
  startupCreators
  = <["Circle" := Callable (λ _, Some (BaseMenuDecorator (Some CircleMenuStrategy)))]>
      (<["Special" := Callable (λ _, Some NoBaseMenuStrategy)]>
         (<["Background" :=
              Callable (λ _, Some (PasteOnlyMenuDecorator (Some BackgroundMenuStrategy)))]>
            (<["TextItem" :=
                 Callable (λ _, Some (BaseMenuDecorator (Some TextItemMenuStrategy)))]>
               ∅))).
Proof.
  unfold startupCreators, registerMenuStrategies, bind.
  by rewrite !registerCreator_insert.
Qed.

(** X6: [registerMenuStrategies] on any registry returns normally, sets
    the creators of "TextItem", "Background", "Special" and "Circle",
    overriding earlier ones, and keeps every other registration; running
    it a second time changes nothing. *)
Theorem registerMenuStrategies_overrides (creators : gmap string Creator) :
  registerMenuStrategies creators = (Returned (), startupCreators ∪ creators)
  ∧ (registerMenuStrategies (registerMenuStrategies creators).2).2
    = (registerMenuStrategies creators).2
  ∧ dom (registerMenuStrategies creators).2
    = {["TextItem"; "Background"; "Special"; "Circle"]} ∪ dom creators
  ∧ (∀ type : string,
       type ∉ ({["TextItem"; "Background"; "Special"; "Circle"]} : gset string) →
       (registerMenuStrategies creators).2 !! type = creators !! type).
Proof.
  assert (∀ m : gmap string Creator,
            registerMenuStrategies m = (Returned (), startupCreators ∪ m)) as Hreg.
  { intros m. rewrite startupCreators_inserts.
    unfold registerMenuStrategies, bind. rewrite !registerCreator_insert.
    f_equal. rewrite <- !insert_union_l. by rewrite (left_id_L ∅ (∪)). }
  split; [apply Hreg |]. rewrite !Hreg; simpl.
  split; [| split].
  - rewrite (assoc_L (∪)). by rewrite (idemp_L (∪)).
  - rewrite dom_union_L, startupCreators_inserts, !dom_insert_L, dom_empty_L.
    set_solver.
  - intros type Hnot. rewrite lookup_union_r; [done |].
    rewrite startupCreators_inserts.
    rewrite !lookup_insert_ne by set_solver. apply lookup_empty.
Qed.

Lemma registerMenuStrategies_overrides_witness :
  (registerMenuStrategies {["Polygon" := EmptyFunction; "Circle" := EmptyFunction]}).2
    !! "Polygon"
  = Some EmptyFunction.
Proof.
  destruct (registerMenuStrategies_overrides
              {["Polygon" := EmptyFunction; "Circle" := EmptyFunction]})
    as (_ & _ & _ & Hother).
  rewrite (Hother "Polygon"); [reflexivity |].
  vm_compute. discriminate.
Defined.

(** ** Dispatch *)

Lemma backgroundMenuEvent_registry (creators : gmap string Creator)
    (user : User) (w : World) :
  (backgroundMenuEvent user w creators).2 = creators.
Proof.
  unfold backgroundMenuEvent, bind. rewrite create_lookup.
  destruct (creators !! "Background") as [[| f] |]; try done.
  by destruct (f ()).
Qed.

(** X7: a context-menu event never changes the registry, whatever is
    under the cursor, whatever the user picks and however the event ends
    (menu, default handling or exception). *)
Theorem contextMenuEvent_keeps_registry (creators : gmap string Creator)
    (item : option QGraphicsItem) (user : User) (w : World) :
  (contextMenuEvent item user w creators).2 = creators.
Proof.
  destruct item as [[baseItem |] |]; simpl;
    try apply backgroundMenuEvent_registry.
  unfold bind. rewrite create_lookup.
  destruct (creators !! objectType baseItem) as [[| f] |]; try done.
  - destruct (f ()); [done |]. apply backgroundMenuEvent_registry.
  - apply backgroundMenuEvent_registry.
Qed.

Lemma contextMenuEvent_item_found (creators : gmap string Creator)
    (baseItem : BaseCustomItem) (user : User) (w : World)
    (f : unit → shared_ptr MenuStrategy) (strategy : MenuStrategy) :
  creators !! objectType baseItem = Some (Callable f) →
  f () = Some strategy →
  contextMenuEvent (Some (Custom baseItem)) user w creators
  = (Returned
       (MenuShown (createMenu strategy (selectionContext baseItem) w),
        exec (createMenu strategy (selectionContext baseItem) w)
             (user (createMenu strategy (selectionContext baseItem) w)) w),
     creators).
Proof.
  intros Hlook Hf. unfold contextMenuEvent; simpl. unfold bind.
  rewrite create_lookup, Hlook, Hf. reflexivity.
Qed.

(** X8: when the type of the item under the cursor has a creator that
    yields a strategy, that strategy builds the menu, with a context whose
    "selection" is that one item and whose scene is set; the "Background"
    creator is not consulted (it may be missing or empty). *)
Theorem item_strategy_builds_menu (creators : gmap string Creator)
    (baseItem : BaseCustomItem) (user : User) (w : World)
    (f : unit → shared_ptr MenuStrategy) (strategy : MenuStrategy) :
  creators !! objectType baseItem = Some (Callable f) →
  f () = Some strategy →
  contextMenuEvent (Some (Custom baseItem)) user w creators
  = (Returned
       (MenuShown (createMenu strategy (selectionContext baseItem) w),
        exec (createMenu strategy (selectionContext baseItem) w)
             (user (createMenu strategy (selectionContext baseItem) w)) w),
     creators)
  ∧ toItemList (QVariantMap_value (extras (selectionContext baseItem)) "selection")
    = [Some baseItem]
  ∧ scene (selectionContext baseItem) = Some ThisScene.
Proof.
  intros Hlook Hf. split; [by apply (contextMenuEvent_item_found _ _ _ _ f) |].
  split; [| done]. unfold QVariantMap_value, selectionContext; simpl.
  by rewrite lookup_insert_eq.
Qed.

Lemma item_strategy_builds_menu_witness :
  (contextMenuEvent (Some (Custom CustomItem2)) (λ _, None) emptyClipboard
     (<["Background" := EmptyFunction]> startupCreators)).1
  = Returned
      (MenuShown (createMenu NoBaseMenuStrategy (selectionContext CustomItem2)
                    emptyClipboard),
       emptyClipboard).
Proof.
  destruct (item_strategy_builds_menu
              (<["Background" := EmptyFunction]> startupCreators)
              CustomItem2 (λ _, None) emptyClipboard
              (λ _, Some NoBaseMenuStrategy) NoBaseMenuStrategy)
    as (Hevent & _).
  - reflexivity.
  - reflexivity.
  - rewrite Hevent. reflexivity.
Defined.

(** X9: an item that is not a [BaseCustomItem] is handled exactly as a
    click on the background, in every registry; so is an item whose
    creator returns a null strategy. *)
Theorem null_strategy_falls_back (creators : gmap string Creator)
    (user : User) (w : World) :
  contextMenuEvent (Some Foreign) user w creators
  = contextMenuEvent None user w creators
  ∧ ∀ (baseItem : BaseCustomItem) (f : unit → shared_ptr MenuStrategy),
      creators !! objectType baseItem = Some (Callable f) →
      f () = None →
      contextMenuEvent (Some (Custom baseItem)) user w creators
      = contextMenuEvent None user w creators.
Proof.
  split; [done |]. intros baseItem f Hlook Hf.
  unfold contextMenuEvent; simpl. unfold bind at 1.
  by rewrite create_lookup, Hlook, Hf.
Qed.

Lemma null_strategy_falls_back_witness :
  (contextMenuEvent (Some Foreign) (λ _, None) emptyClipboard startupCreators
   = contextMenuEvent None (λ _, None) emptyClipboard startupCreators
   ∧ (contextMenuEvent (Some Foreign) (λ _, None) emptyClipboard startupCreators).1
     = Returned
         (MenuShown
            (createMenu (PasteOnlyMenuDecorator (Some BackgroundMenuStrategy))
               newContext emptyClipboard),
          emptyClipboard))
  ∧ contextMenuEvent (Some (Custom CustomItem)) (λ _, None) emptyClipboard
      (<["TextItem" := Callable (λ _, None)]> startupCreators)
    = contextMenuEvent None (λ _, None) emptyClipboard
        (<["TextItem" := Callable (λ _, None)]> startupCreators).
Proof.
  split.
  - destruct (null_strategy_falls_back startupCreators (λ _, None) emptyClipboard)
      as (Hforeign & _).
    split; [exact Hforeign |]. rewrite Hforeign. reflexivity.
  - destruct (null_strategy_falls_back
                (<["TextItem" := Callable (λ _, None)]> startupCreators)
                (λ _, None) emptyClipboard) as (_ & Hnull).
    apply (Hnull CustomItem (λ _, None)); reflexivity.
Defined.

(** ** Choosing an entry *)

Lemma actionAt_app (entries rest : list QAction) (k : nat) :
  actionAt (entries ++ rest) [length entries + k] = rest !! k.
Proof.
  cbn. rewrite lookup_app_r by lia. f_equal. lia.
Qed.

Lemma BaseMenuDecorator_actions (wrapped : MenuStrategy)
    (ctx : CommandContext) (w : World) :
  actions (createMenu (BaseMenuDecorator (Some wrapped)) ctx w)
  = actions (createMenu wrapped ctx w)
    ++ [Separator;
        Action "复制" true CopyCommand ctx;
        Action "剪切" true NullCommand ctx;
        Action "粘贴" (negb (isEmpty (clipboard w))) PasteCommand ctx].
Proof. cbn. by rewrite <- !app_assoc. Qed.

(** X10: in a menu built by [BaseMenuDecorator], the four positions
    after the wrapped entries act as follows when chosen: the separator
    does nothing, "复制" runs [CopyCommand] on the context of the menu,
    "剪切" does nothing, and "粘贴" shows the clipboard text unless the
    clipboard was empty when the menu was built, in which case the entry
    is disabled and nothing runs. *)
Theorem base_section_choices (wrapped : MenuStrategy) (ctx : CommandContext)
    (w w' : World) :
  exec (createMenu (BaseMenuDecorator (Some wrapped)) ctx w)
       (Some [length (actions (createMenu wrapped ctx w)) + 0]) w' = w'
  ∧ exec (createMenu (BaseMenuDecorator (Some wrapped)) ctx w)
         (Some [length (actions (createMenu wrapped ctx w)) + 1]) w'
    = execute CopyCommand ctx w'
  ∧ exec (createMenu (BaseMenuDecorator (Some wrapped)) ctx w)
         (Some [length (actions (createMenu wrapped ctx w)) + 2]) w' = w'
  ∧ exec (createMenu (BaseMenuDecorator (Some wrapped)) ctx w)
         (Some [length (actions (createMenu wrapped ctx w)) + 3]) w'
    = (if isEmpty (clipboard w) then w'
       else emit (MessageBox "paste" (clipboard w')) w').
Proof.
  unfold exec. rewrite BaseMenuDecorator_actions, !actionAt_app. simpl.
  repeat split. by destruct (isEmpty (clipboard w)).
Qed.

(** X11: end to end, when the creator of the item's type yields a
    [BaseMenuDecorator] and the user picks the "复制" entry, the event
    shows exactly one "Copy" dialog, naming the type of the item under the
    cursor, and changes nothing else. *)
Theorem copy_choice_reports_item (creators : gmap string Creator)
    (baseItem : BaseCustomItem) (wrapped : MenuStrategy)
    (f : unit → shared_ptr MenuStrategy) (w : World) :
  creators !! objectType baseItem = Some (Callable f) →
  f () = Some (BaseMenuDecorator (Some wrapped)) →
  contextMenuEvent (Some (Custom baseItem))
    (λ _, Some [length (actions (createMenu wrapped (selectionContext baseItem) w)) + 1])
    w creators
  = (Returned
       (MenuShown (createMenu (BaseMenuDecorator (Some wrapped))
                     (selectionContext baseItem) w),
        {| clipboard := clipboard w;
           events := events w ++ [copyMessage baseItem] |}),
     creators).
Proof.
  intros Hlook Hf.
  rewrite (contextMenuEvent_item_found _ _ _ _ f _ Hlook Hf).
  do 3 f_equal.
  unfold exec. rewrite BaseMenuDecorator_actions, actionAt_app. simpl.
  unfold QVariantMap_value. by rewrite lookup_insert_eq.
Qed.

Lemma copy_choice_reports_item_witness :
  (contextMenuEvent (Some (Custom CustomItem)) (λ _, Some [3])
     emptyClipboard startupCreators).1
  = Returned
      (MenuShown (createMenu (BaseMenuDecorator (Some TextItemMenuStrategy))
                    (selectionContext CustomItem) emptyClipboard),
       {| clipboard := "";
          events := [MessageBox "Copy" "Copy action: objectType = TextItem"] |}).
Proof.
  assert (startupCreators !! objectType CustomItem
          = Some (Callable (λ _, Some (BaseMenuDecorator (Some TextItemMenuStrategy)))))
    as Hlook by reflexivity.
  exact (f_equal fst
           (copy_choice_reports_item startupCreators CustomItem
              TextItemMenuStrategy _ emptyClipboard Hlook eq_refl)).
Defined.

(** X12: the composite of [NoBaseMenuStrategy], filled by two
    [addCommand] calls, and the composite of [CircleMenuStrategy], built by
    [combineCommands] and placed in the sub-menu, act alike when their
    entry is chosen: the line of [CustomCommand1] is logged, then the line
    of [CustomCommand2].  The other entry of the sub-menu and the sub-menu
    entry itself do nothing. *)
Theorem composite_entries_run_both (ctx : CommandContext) (w w' : World) :
  exec (createMenu NoBaseMenuStrategy ctx w) (Some [0]) w'
  = {| clipboard := clipboard w';
       events := events w' ++ [DebugLine "CustomCommand1 executed";
                               DebugLine "CustomCommand2 executed"] |}
  ∧ exec (createMenu CircleMenuStrategy ctx w) (Some [2; 0]) w'
    = exec (createMenu NoBaseMenuStrategy ctx w) (Some [0]) w'
  ∧ exec (createMenu CircleMenuStrategy ctx w) (Some [2; 1]) w' = w'
  ∧ exec (createMenu CircleMenuStrategy ctx w) (Some [2]) w' = w'.
Proof.
  repeat split. cbn. unfold emit; simpl. by rewrite <- app_assoc.
Qed.

(** ** The clipboard is only read *)

Lemma actionAt_commands (path : list nat) :
  ∀ (entries : list QAction) (text : string) (enabled : bool)
    (cmd : ICommand) (ctx : CommandContext),
    actionAt entries path = Some (Action text enabled cmd ctx) →
    In cmd (flat_map commandsOf entries).
Proof.
  induction path as [| i [| j rest] IH]; intros entries text enabled cmd ctx Hat.
  - discriminate.
  - simpl in Hat. apply in_flat_map. exists (Action text enabled cmd ctx).
    split; [| by left]. apply list_elem_of_In. eapply list_elem_of_lookup_2, Hat.
  - change (actionAt entries (i :: j :: rest))
      with (match entries !! i with
            | Some (SubMenu _ sub) => actionAt sub (j :: rest)
            | _ => None
            end) in Hat.
    destruct (entries !! i) as [[| | t sub] |] eqn:Hi; try discriminate.
    apply in_flat_map. exists (SubMenu t sub). split.
    + apply list_elem_of_In. eapply list_elem_of_lookup_2, Hi.
    + simpl. eapply IH, Hat.
Qed.

Lemma exec_keepsClipboard (menu : QMenu) (choice : option (list nat)) (w : World) :
  (∀ cmd, In cmd (menuCommands menu) → keepsClipboard cmd) →
  clipboard (exec menu choice w) = clipboard w.
Proof.
  intros Hall. unfold exec.
  destruct choice as [path |]; [| done].
  destruct (actionAt (actions menu) path) as [[text [|] cmd ctx | | ] |] eqn:Hat;
    try done.
  simpl. apply Hall. unfold menuCommands. eapply actionAt_commands, Hat.
Qed.

Lemma CopyCommand_keepsClipboard : keepsClipboard CopyCommand.
Proof. intros ctx w. simpl. by rewrite copyItems_events. Qed.

Ltac keeps_clipboard :=
  let Hin := fresh "Hin" in
  intros ? Hin; cbn in Hin;
  repeat (destruct Hin as [<- | Hin];
          [first [ apply CopyCommand_keepsClipboard
                 | intros ? ?; reflexivity ] |]);
  destruct Hin.

Lemma startup_strategies_keepClipboard (type : string) :
  startupCreators !! type = None
  ∨ ∃ (f : unit → shared_ptr MenuStrategy) (strategy : MenuStrategy),
      startupCreators !! type = Some (Callable f)
      ∧ f () = Some strategy
      ∧ ∀ (ctx : CommandContext) (w : World) (cmd : ICommand),
          In cmd (menuCommands (createMenu strategy ctx w)) → keepsClipboard cmd.
Proof.
  rewrite startupCreators_inserts.
  destruct (decide (type = "Circle")) as [-> | ?];
    [| destruct (decide (type = "Special")) as [-> | ?];
       [| destruct (decide (type = "Background")) as [-> | ?];
          [| destruct (decide (type = "TextItem")) as [-> | ?]]]].
  5: { left. by rewrite !lookup_insert_ne by done. }
  all: right; eexists _, _; split; [reflexivity |]; split; [reflexivity |];
    intros ctx w; keeps_clipboard.
Qed.

(** X13: with the registrations of [registerMenuStrategies], every
    context-menu event returns normally (no creator throws), whatever is
    under the cursor and whatever the user picks, and the clipboard text
    after the event is the one before it: no command reachable from a menu
    writes the clipboard. *)
Theorem startup_event_keeps_clipboard (item : option QGraphicsItem)
    (user : User) (w : World) :
  ∃ (outcome : Outcome) (w' : World),
    contextMenuEvent item user w startupCreators
    = (Returned (outcome, w'), startupCreators)
    ∧ clipboard w' = clipboard w.
Proof.
  assert (∃ (outcome : Outcome) (w' : World),
            backgroundMenuEvent user w startupCreators
            = (Returned (outcome, w'), startupCreators)
            ∧ clipboard w' = clipboard w) as Hbackground.
  { destruct (startup_strategies_keepClipboard "Background")
      as [Hnone | (f & strategy & Hlook & Hf & Hkeeps)].
    - eexists _, _. split; [by apply backgroundMenuEvent_unregistered | done].
    - eexists _, _. split; [by apply (backgroundMenuEvent_registered _ _ _ f) |].
      apply exec_keepsClipboard, Hkeeps. }
  destruct item as [[baseItem |] |]; try exact Hbackground.
  destruct (startup_strategies_keepClipboard (objectType baseItem))
    as [Hnone | (f & strategy & Hlook & Hf & Hkeeps)].
  - destruct Hbackground as (outcome & w' & Hevent & Hclip).
    exists outcome, w'. split; [| done]. rewrite <- Hevent.
    unfold contextMenuEvent; simpl. unfold bind at 1.
    by rewrite create_lookup, Hnone.
  - eexists _, _. split; [by apply (contextMenuEvent_item_found _ _ _ _ f) |].
    apply exec_keepsClipboard, Hkeeps.
Qed.

(** ** Composites as menu entries *)

Lemma runCommands_invariant (P : World → Prop)
    (cs : list (shared_ptr ICommand)) (ctx : CommandContext) (w : World) :
  (∀ cmd, In (Some cmd) cs → ∀ w', P w' → P (execute cmd ctx w')) →
  P w → P (runCommands cs ctx w).
Proof.
  revert w. induction cs as [| [c |] cs IH]; intros w Hall Hw; simpl.
  - done.
  - apply IH.
    + intros cmd Hin. apply Hall. by right.
    + apply Hall; [by left | done].
  - apply IH; [| done]. intros cmd Hin. apply Hall. by right.
Qed.

(** X14: a property of the world that every non-null child of a
    composite preserves is preserved by the composite, for any number of
    children. *)
Theorem composite_preserves_invariant (P : World → Prop)
    (cs : list (shared_ptr ICommand)) (ctx : CommandContext) (w : World) :
  (∀ cmd, In (Some cmd) cs → ∀ w', P w' → P (execute cmd ctx w')) →
  P w →
  P (execute (CompositeCommand.upcast (CompositeCommand.mk cs)) ctx w).
Proof. apply runCommands_invariant. Qed.

Lemma composite_preserves_invariant_witness :
  clipboard (execute (CompositeCommand.upcast
                        (CompositeCommand.mk
                           [Some CustomCommand1; None; Some PasteCommand]))
                     newContext emptyClipboard)
  = "".
Proof.
  apply (composite_preserves_invariant (λ w, clipboard w = "")
           [Some CustomCommand1; None; Some PasteCommand]
           newContext emptyClipboard).
  - intros cmd Hin w' Hw'. simpl in Hin.
    destruct Hin as [[= <-] | [[=] | [[= <-] | []]]]; exact Hw'.
  - reflexivity.
Defined.

(** X15: an entry bound to a composite made by [combineCommands] is
    always added and always enabled, whatever [isVisible] and [isEnable]
    of the children say and even when there is no child; choosing it runs
    every non-null child in order, without asking the children whether
    they are enabled. *)
Theorem composite_entry_ignores_children_flags (menu : QMenu) (text : string)
    (cs : list (shared_ptr ICommand)) (ctx : CommandContext) (w : World) :
  actions (addCommandAction menu text (CommandUtils.combineCommands cs) ctx w)
  = actions menu
    ++ [Action text true
          (CompositeCommand.upcast (CompositeCommand.mk (Some <$> omap id cs))) ctx]
  ∧ ∀ w' : World,
      exec (addCommandAction menu text (CommandUtils.combineCommands cs) ctx w)
           (Some [length (actions menu)]) w'
      = foldl (λ w'' c, execute c ctx w'') w' (omap id cs).
Proof.
  assert (CommandUtils.combineCommands cs
          = Some (CompositeCommand.upcast
                    (CompositeCommand.mk (Some <$> omap id cs)))) as ->.
  { unfold CommandUtils.combineCommands. do 2 f_equal.
    pose proof (commands_addCommands cs CompositeCommand.new) as H.
    destruct (foldl _ _ _) as [l]. simpl in H. by rewrite H. }
  split; [done |]. intros w'.
  unfold exec. cbn [addCommandAction isVisible CompositeCommand.upcast
                    ICommand_isVisible negb appendAction actions].
  rewrite actionAt_last. cbn [isEnable CompositeCommand.upcast ICommand_isEnable
                              trigger execute CompositeCommand.execute
                              CompositeCommand.commands].
  unfold CompositeCommand.execute; simpl.
  rewrite runCommands_foldl. f_equal.
  generalize (omap id cs) as l.
  induction l as [| c l IH]; [done |]. cbn. by f_equal.
Qed.
